(** * eGFR / creatinine-clearance calculator: the core of [src/egfr.py]

    A shallow embedding of the calculation-and-classification engine
    (unit conversion, the four formulas, KDIGO staging, result assembly)
    together with the properties its specification states.

    Numbers.  The code is embedded twice.  In [Py] and [Egfr] a Python
    float is idealised as a real number ([R]): a float literal denotes its
    decimal value, [+ - * /] are the field operations and [**] is the real
    power; this is the model of which value and which record the code
    computes, up to rounding.  In [Py64] and [Egfr64] a Python float is a
    binary64 float, with rounding, infinities and NaN; this is the model
    of which inputs make the assembler fail, where the range of the floats
    matters.  Ages are Python ints, modelled as [Z].  Strings are Python
    strings, compared with [==]. *)

From Stdlib Require Import Reals Lra ZArith Lia String Bool List.
From Stdlib Require Floats.
Import ListNotations.

Open Scope string_scope.
Open Scope R_scope.

(** ** The fragment of the Python runtime the module relies on *)
Module Py.

(** The outcomes the code can meet besides a value.  [ValueError] is the
    only exception the module raises itself; [ZeroDivisionError] comes from
    [/] and [**].  [ComplexValue] is not an exception: a negative float
    raised to a fractional power is a Python [complex], which has no
    counterpart among the reals, so the model stops there. *)
Inductive exn : Type :=
| ValueError (msg : string)
| ZeroDivisionError
| ComplexValue.

Inductive result (A : Type) : Type :=
| Ok (a : A)
| Raise (e : exn).

Arguments Ok {A} a.
Arguments Raise {A} e.

Definition bind {A B : Type} (m : result A) (k : A -> result B) : result B :=
  match m with
  | Ok a => k a
  | Raise e => Raise e
  end.

(** [x <= y], [x < y], [x >= y] on floats. *)
Definition fle (x y : R) : bool := if Rle_dec x y then true else false.

Definition flt (x y : R) : bool := if Rlt_dec x y then true else false.

Definition fge (x y : R) : bool := fle y x.

(** [x / y]: float division raises on a zero divisor. *)
Definition fdiv (x y : R) : result R :=
  if Req_dec_T y 0 then Raise ZeroDivisionError else Ok (x / y).

(** [x ** y] on floats, following [float.__pow__]: anything to the power
    zero is one; a zero base raises for a negative exponent; a negative
    base stays among the floats for integral exponents only. *)
Definition fpow (x y : R) : result R :=
  if Req_dec_T y 0 then Ok 1
  else if Rlt_dec 0 x then Ok (Rpower x y)
  else if Req_dec_T x 0 then
    (if Rlt_dec y 0 then Raise ZeroDivisionError else Ok 0)
  else if Req_dec_T (IZR (Int_part y)) y then Ok (powerRZ x (Int_part y))
  else Raise ComplexValue.

(** [min(a, b)] and [max(a, b)]: the first argument wins ties. *)
Definition fmin (a b : R) : R := if flt b a then b else a.

Definition fmax (a b : R) : R := if flt a b then b else a.

End Py.

Import Py.

Notation "x <- m ;; k" := (bind m (fun x => k))
  (at level 61, m at next level, right associativity).

(** ** [src/egfr.py] *)
Module Egfr.

(** [scr_to_mgdl]: umol/L -> mg/dL divides by 88.4. *)
Definition scr_to_mgdl (scr_value : R) (unit : string) : result R :=
  if fle scr_value 0 then Raise (ValueError "Creatinine phải > 0.")
  else if String.eqb unit "umol/L" then fdiv scr_value 88.4
  else Ok scr_value.

(** [gfr_stage_g1_g5]: KDIGO stage code and text of a filtration value. *)
Definition gfr_stage_g1_g5 (gfr : R) : string * string :=
  if fge gfr 90 then ("G1", "Bình thường / cao (≥90)")
  else if fge gfr 60 then ("G2", "Giảm nhẹ (60–89)")
  else if fge gfr 45 then ("G3a", "Giảm nhẹ–vừa (45–59)")
  else if fge gfr 30 then ("G3b", "Giảm vừa–nặng (30–44)")
  else if fge gfr 15 then ("G4", "Giảm nặng (15–29)")
  else ("G5", "Suy thận giai đoạn cuối (<15)").

(** [egfr_ckd_epi_2021]: the race-free CKD-EPI creatinine equation. *)
Definition egfr_ckd_epi_2021 (scr_mgdl : R) (age : Z) (sex : string) : result R :=
  if (age <? 18)%Z then
    Raise (ValueError "CKD-EPI 2021: áp dụng cho người lớn (>=18 tuổi).")
  else
    let kappa := if String.eqb sex "female" then 0.7 else 0.9 in
    let alpha := if String.eqb sex "female" then -0.241 else -0.302 in
    let female_factor := if String.eqb sex "female" then 1.012 else 1.0 in
    ratio <- fdiv scr_mgdl kappa ;;
    let mn := fmin ratio 1.0 in
    let mx := fmax ratio 1.0 in
    p1 <- fpow mn alpha ;;
    p2 <- fpow mx (-1.200) ;;
    p3 <- fpow 0.9938 (IZR age) ;;
    Ok (142.0 * p1 * p2 * p3 * female_factor).

(** [egfr_ckd_epi_2009]: the 2009 equation, with its race coefficient. *)
Definition egfr_ckd_epi_2009 (scr_mgdl : R) (age : Z) (sex : string)
    (black : bool) : result R :=
  if (age <? 18)%Z then
    Raise (ValueError "CKD-EPI 2009: áp dụng cho người lớn (>=18 tuổi).")
  else
    let kappa := if String.eqb sex "female" then 0.7 else 0.9 in
    let alpha := if String.eqb sex "female" then -0.329 else -0.411 in
    ratio <- fdiv scr_mgdl kappa ;;
    let mn := fmin ratio 1.0 in
    let mx := fmax ratio 1.0 in
    let female_factor := if String.eqb sex "female" then 1.018 else 1.0 in
    let black_factor := if black then 1.159 else 1.0 in
    p1 <- fpow mn alpha ;;
    p2 <- fpow mx (-1.209) ;;
    p3 <- fpow 0.993 (IZR age) ;;
    Ok (141.0 * p1 * p2 * p3 * female_factor * black_factor).

(** [egfr_mdrd_idms]: the four-variable, IDMS-traceable MDRD equation. *)
Definition egfr_mdrd_idms (scr_mgdl : R) (age : Z) (sex : string)
    (black : bool) : result R :=
  if (age <? 18)%Z then
    Raise (ValueError "MDRD: áp dụng cho người lớn (>=18 tuổi).")
  else
    let female_factor := if String.eqb sex "female" then 0.742 else 1.0 in
    let black_factor := if black then 1.212 else 1.0 in
    p1 <- fpow scr_mgdl (-1.154) ;;
    p2 <- fpow (IZR age) (-0.203) ;;
    Ok (175.0 * p1 * p2 * female_factor * black_factor).

(** [crcl_cockcroft_gault]: creatinine clearance in mL/min, not normalised
    to body surface area. *)
Definition crcl_cockcroft_gault (scr_mgdl : R) (age : Z) (sex : string)
    (weight_kg : R) : result R :=
  if (age <? 18)%Z then
    Raise (ValueError "Cockcroft–Gault: thường dùng cho người lớn (>=18 tuổi).")
  else if fle weight_kg 0 then Raise (ValueError "Cân nặng phải > 0.")
  else
    crcl <- fdiv ((140.0 - IZR age) * weight_kg) (72.0 * scr_mgdl) ;;
    Ok (if String.eqb sex "female" then crcl * 0.85 else crcl).

(** The dataclass [KidneyResult]. *)
Record KidneyResult : Type := mkKidneyResult {
  timestamp : string;
  method : string;
  age : Z;
  sex : string;
  scr_value : R;
  scr_unit : string;
  scr_mgdl : R;
  black : option bool;
  weight_kg : option R;
  value : R;
  value_unit : string;
  stage : string;
  stage_text : string;
  notes : string
}.

(** What each branch of the dispatch leaves in [val], [unit], [notes],
    [stage], [stage_text], [blk] and [w]. *)
Record branch : Type := mkBranch {
  b_val : R;
  b_unit : string;
  b_notes : string;
  b_stage : string * string;
  b_blk : option bool;
  b_w : option R
}.

(** [compute_kidney_function].  [now] is the formatted wall-clock time the
    function reads once, when it builds the record; the defaults
    [black=False] and [weight_kg=None] are passed explicitly. *)
Definition compute_kidney_function (now : string) (method : string) (age : Z)
    (sex : string) (scr_value : R) (scr_unit : string) (black : bool)
    (weight_kg : option R) : result KidneyResult :=
  scr_mgdl <- scr_to_mgdl scr_value scr_unit ;;
  b <- (if String.eqb method "CKD-EPI 2021" then
          val <- egfr_ckd_epi_2021 scr_mgdl age sex ;;
          Ok (mkBranch val "mL/min/1.73m²"
                "eGFR chuẩn hoá 1.73m² (CKD-EPI 2021, không chủng tộc)."
                (gfr_stage_g1_g5 val) None None)
        else if String.eqb method "CKD-EPI 2009" then
          val <- egfr_ckd_epi_2009 scr_mgdl age sex black ;;
          Ok (mkBranch val "mL/min/1.73m²"
                "eGFR chuẩn hoá 1.73m² (CKD-EPI 2009). Có tuỳ chọn hệ số người da đen."
                (gfr_stage_g1_g5 val) (Some black) None)
        else if String.eqb method "MDRD (IDMS)" then
          val <- egfr_mdrd_idms scr_mgdl age sex black ;;
          Ok (mkBranch val "mL/min/1.73m²"
                "eGFR chuẩn hoá 1.73m² (MDRD IDMS). Có tuỳ chọn hệ số người da đen."
                (gfr_stage_g1_g5 val) (Some black) None)
        else if String.eqb method "Cockcroft-Gault" then
          match weight_kg with
          | None => Raise (ValueError "Cockcroft–Gault cần nhập cân nặng.")
          | Some weight =>
              val <- crcl_cockcroft_gault scr_mgdl age sex weight ;;
              Ok (mkBranch val "mL/min"
                    "CrCl (Cockcroft–Gault) KHÔNG chuẩn hoá 1.73m²; thường dùng chỉnh liều thuốc."
                    (gfr_stage_g1_g5 val) None (Some weight))
          end
        else Raise (ValueError "Phương pháp không hợp lệ.")) ;;
  Ok (mkKidneyResult now method age sex scr_value scr_unit scr_mgdl
        (b_blk b) (b_w b) (b_val b) (b_unit b)
        (fst (b_stage b)) (snd (b_stage b)) (b_notes b)).

End Egfr.

Import Egfr.

(** ** The specification's vocabulary *)
Module Spec.

Inductive Sex : Type := male | female.

Inductive CreatinineUnit : Type := umol_per_L | mg_per_dL.

Inductive Method : Type :=
| CKD_EPI_2021
| CKD_EPI_2009
| MDRD_IDMS
| Cockcroft_Gault.

Inductive StageBucket : Type := G1 | G2 | G3a | G3b | G4 | G5.


Definition unit_str (u : CreatinineUnit) : string :=
  match u with umol_per_L => "umol/L" | mg_per_dL => "mg/dL" end.

Definition method_str (m : Method) : string :=
  match m with
  | CKD_EPI_2021 => "CKD-EPI 2021"
  | CKD_EPI_2009 => "CKD-EPI 2009"
  | MDRD_IDMS => "MDRD (IDMS)"
  | Cockcroft_Gault => "Cockcroft-Gault"
  end.

Definition stage_code (b : StageBucket) : string :=
  match b with
  | G1 => "G1" | G2 => "G2" | G3a => "G3a"
  | G3b => "G3b" | G4 => "G4" | G5 => "G5"
  end.

(** The value range of each bucket: closed below, open above, the last
    one unbounded below. *)
Definition in_bucket (v : R) (b : StageBucket) : Prop :=
  match b with
  | G1 => 90 <= v
  | G2 => 60 <= v < 90
  | G3a => 45 <= v < 60
  | G3b => 30 <= v < 45
  | G4 => 15 <= v < 30
  | G5 => v < 15
  end.

(** CKD-EPI 2021, as the specification writes it. *)
Definition ckd_epi_2021 (creatinine : R) (age : Z) (s : Sex) : R :=
  let kappa := match s with female => 0.7 | male => 0.9 end in
  let alpha := match s with female => -0.241 | male => -0.302 end in
  let femaleFactor := match s with female => 1.012 | male => 1.0 end in
  let ratio := creatinine / kappa in
  142 * Rpower (Rmin ratio 1) alpha * Rpower (Rmax ratio 1) (-1.200)
  * Rpower 0.9938 (IZR age) * femaleFactor.

(** MDRD (IDMS), as the specification writes it. *)
Definition mdrd_idms (creatinine : R) (age : Z) (s : Sex) (raceFlag : bool) : R :=
  let femaleFactor := match s with female => 0.742 | male => 1.0 end in
  let raceFactor := if raceFlag then 1.212 else 1.0 in
  175 * Rpower creatinine (-1.154) * Rpower (IZR age) (-0.203)
  * femaleFactor * raceFactor.

(** Cockcroft-Gault, as the specification writes it. *)
Definition cockcroft_gault (creatinine : R) (age : Z) (s : Sex) (weight : R) : R :=
  let result := ((140 - IZR age) * weight) / (72 * creatinine) in
  match s with female => result * 0.85 | male => result end.

(** The invariant of ComputationInput on the optional weight. *)
Definition weight_iff_cockcroft_gault (method : string) (weight : option R) : Prop :=
  weight <> None <-> method = method_str Cockcroft_Gault.

(** The triggers of InvalidInput the specification lists for the
    assembler. *)
Definition trigger (method : string) (age : Z) (creatinine : R)
    (weight : option R) : Prop :=
  creatinine <= 0
  \/ (age < 18)%Z
  \/ (method = method_str Cockcroft_Gault /\ weight = None)
  \/ (method = method_str Cockcroft_Gault
      /\ exists w, weight = Some w /\ w <= 0)
  \/ (forall k, method <> method_str k).

End Spec.

(** The record [compute_kidney_function] builds from its arguments, the
    normalised creatinine [m] and the locals a branch has set. *)
Definition assembled_record (now : string) (age : Z) (sex : string)
    (scr_value : R) (scr_unit : string) (method : string) (m : R)
    (blk : option bool) (w : option R) (val : R) (unit notes : string)
    : KidneyResult :=
  mkKidneyResult now method age sex scr_value scr_unit m blk w val unit
    (fst (gfr_stage_g1_g5 val)) (snd (gfr_stage_g1_g5 val)) notes.

(** The record of the specification's end-to-end scenario B
    (Cockcroft-Gault, 60 years, female, 1.0 mg/dL, 60 kg), computed at
    the time [now]. *)
Definition scenario_b_record (now : string) : KidneyResult :=
  assembled_record now 60 "female" 1.0 "mg/dL" "Cockcroft-Gault" 1.0
    None (Some 60) ((140.0 - 60) * 60 / (72.0 * 1.0) * 0.85) "mL/min"
    "CrCl (Cockcroft–Gault) KHÔNG chuẩn hoá 1.73m²; thường dùng chỉnh liều thuốc.".

(** The single error kind of the specification, InvalidInput, is the
    code's [ValueError]. *)
Definition InvalidInput {A : Type} (r : result A) : Prop :=
  exists msg, r = Raise (ValueError msg).

(** ** The equations as the docstrings of [src/egfr.py] give them, for a
    sex given as the code receives it: a string, female when it is
    ["female"] and male otherwise *)
Module Doc.

Definition female (sex : string) : bool := String.eqb sex "female".

Definition kappa (sex : string) : R := if female sex then 0.7 else 0.9.

Definition ckd_epi_2021 (scr : R) (age : Z) (sex : string) : R :=
  142 * Rpower (Rmin (scr / kappa sex) 1) (if female sex then -0.241 else -0.302)
  * Rpower (Rmax (scr / kappa sex) 1) (-1.200)
  * Rpower 0.9938 (IZR age)
  * (if female sex then 1.012 else 1).

Definition ckd_epi_2009 (scr : R) (age : Z) (sex : string) (black : bool) : R :=
  141 * Rpower (Rmin (scr / kappa sex) 1) (if female sex then -0.329 else -0.411)
  * Rpower (Rmax (scr / kappa sex) 1) (-1.209)
  * Rpower 0.993 (IZR age)
  * (if female sex then 1.018 else 1)
  * (if black then 1.159 else 1).

Definition mdrd_idms (scr : R) (age : Z) (sex : string) (black : bool) : R :=
  175 * Rpower scr (-1.154) * Rpower (IZR age) (-0.203)
  * (if female sex then 0.742 else 1)
  * (if black then 1.212 else 1).

Definition cockcroft_gault (scr : R) (age : Z) (sex : string) (weight : R) : R :=
  ((140 - IZR age) * weight) / (72 * scr) * (if female sex then 0.85 else 1).

End Doc.

(** ** [src/app.py]: the form that calls the assembler, the display of
    a result and the history file *)
Module App.

Definition METHODS : list string :=
  ["CKD-EPI 2021"; "CKD-EPI 2009"; "MDRD (IDMS)"; "Cockcroft-Gault"].

(** What the widgets of the form hand to the script on a run: the method
    select box, the age slider, the two radio groups, the creatinine
    slider, the race toggle and the weight slider.  The toggle and the
    weight slider are drawn, and read, for some methods only. *)
Record Form : Type := mkForm {
  method_box : string;
  age_slider : Z;
  sex_ui : string;
  unit_ui : string;
  scr_slider : R;
  black_toggle : bool;
  weight_slider : Z
}.

(** The ranges the widgets are created with. *)
Definition widgets_in_range (f : Form) : Prop :=
  In (method_box f) METHODS
  /\ (18 <= age_slider f <= 100)%Z
  /\ (sex_ui f = "Nam" \/ sex_ui f = "Nữ")
  /\ ((unit_ui f = "µmol/L" /\ 30 <= scr_slider f <= 2000)
      \/ (unit_ui f = "mg/dL" /\ 0.3 <= scr_slider f <= 20.0))
  /\ (30 <= weight_slider f <= 200)%Z.

(** The call the script makes when a button is pressed: the arguments it
    derives from the widgets, then [compute_kidney_function]. *)
Definition submit (now : string) (f : Form) : result KidneyResult :=
  let method := method_box f in
  let sex := if String.eqb (sex_ui f) "Nam" then "male" else "female" in
  let scr_unit := if String.eqb (unit_ui f) "µmol/L" then "umol/L" else "mg/dL" in
  let black :=
    if existsb (String.eqb method) ["CKD-EPI 2009"; "MDRD (IDMS)"]
    then black_toggle f else false in
  let weight_kg :=
    if String.eqb method "Cockcroft-Gault"
    then Some (IZR (weight_slider f)) else None in
  compute_kidney_function now method (age_slider f) sex (scr_slider f)
    scr_unit black weight_kg.

Definition stage_order : list string :=
  ["G1"; "G2"; "G3a"; "G3b"; "G4"; "G5"].

(** [list.index]: the position of the first occurrence, [ValueError] when
    there is none. *)
Fixpoint list_index (x : string) (l : list string) : result nat :=
  match l with
  | [] => Raise (ValueError (String.append "'" (String.append x "' is not in list")))
  | y :: l' =>
      if String.eqb y x then Ok O
      else i <- list_index x l' ;; Ok (S i)
  end.

(** The value handed to the progress bar: [(idx + 1) / len(stage_order)]
    with [idx = stage_order.index(res.stage)]. *)
Definition progress_value (res : KidneyResult) : result R :=
  idx <- list_index (stage res) stage_order ;;
  fdiv (INR (idx + 1)) (INR (List.length stage_order)).

Section History.

(** Python's number formatting, which the model does not look into:
    [fixed n x] is the f-string [x:.nf], [str_int] and [str_float] are
    [str] on an int and on a float. *)
Variable fixed : nat -> R -> string.
Variable str_int : Z -> string.
Variable str_float : R -> string.

Definition str_bool (b : bool) : string := if b then "True" else "False".

(** The dict the script builds from a result, as the list of its items,
    every value being written as the csv module writes it. *)
Definition history_row (res : KidneyResult) : list (string * string) :=
  [ ("timestamp", timestamp res);
    ("method", Egfr.method res);
    ("age", str_int (age res));
    ("sex", sex res);
    ("scr_value", str_float (scr_value res));
    ("scr_unit", scr_unit res);
    ("scr_mgdl", fixed 3 (scr_mgdl res));
    ("black", match black res with None => "" | Some b => str_bool b end);
    ("weight_kg", match weight_kg res with None => "" | Some w => fixed 0 w end);
    ("value", fixed 1 (value res));
    ("value_unit", value_unit res);
    ("stage", stage res);
    ("stage_text", stage_text res);
    ("notes", notes res) ].

End History.


End App.



(** ** The same code over binary64 floats

    The error paths of the assembler depend on what the float operations
    do at the edge of their range, which the real numbers do not show.
    Here a Python float is a binary64 float of the kernel, with its
    rounding, its infinities and its NaN; what a literal denotes is the
    closest float, as in Python. *)
Module Py64.

Import PrimFloat FloatOps.

#[local] Set Warnings "-inexact-float".

Local Open Scope float_scope.

Inductive exn : Type :=
| ValueError (msg : string)
| ZeroDivisionError
| OverflowError
| ComplexValue.

Inductive result (A : Type) : Type :=
| Ok (a : A)
| Raise (e : exn).

Arguments Ok {A} a.
Arguments Raise {A} e.

Definition bind {A B : Type} (m : result A) (k : A -> result B) : result B :=
  match m with
  | Ok a => k a
  | Raise e => Raise e
  end.

(** [x <= y], [x < y], [x >= y]: false as soon as one side is NaN. *)
Definition fle (x y : float) : bool := (x <=? y)%float.

Definition flt (x y : float) : bool := (x <? y)%float.

Definition fge (x y : float) : bool := fle y x.

(** [x / y]: raises on a divisor equal to zero, of either sign; overflow
    gives an infinity and no exception. *)
Definition fdiv (x y : float) : result float :=
  if (y =? 0)%float then Raise ZeroDivisionError else Ok (x / y).

(** The conversion of an int to a float, as mixed arithmetic performs it:
    rounded to the nearest float, ties to even, [OverflowError] when the
    int is beyond the largest float. *)
Definition float_of_int (z : Z) : result float :=
  match SpecFloat.binary_normalize prec emax z 0 false with
  | SpecFloat.S754_infinity _ => Raise OverflowError
  | s => Ok (SF2Prim s)
  end.

(** What [x ** y] on floats can do: return a float, raise
    [ZeroDivisionError] (a zero base with a negative exponent), raise
    [OverflowError] (a result out of range), or leave the floats (a
    negative base with a fractional exponent gives a complex).  It raises
    no [ValueError]. *)
Inductive pow_outcome : Type :=
| PowFloat (v : float)
| PowZeroDivision
| PowOverflow
| PowComplex.

Definition of_pow (o : pow_outcome) : result float :=
  match o with
  | PowFloat v => Ok v
  | PowZeroDivision => Raise ZeroDivisionError
  | PowOverflow => Raise OverflowError
  | PowComplex => Raise ComplexValue
  end.

(** [min(a, b)] and [max(a, b)]: the first argument wins ties, and a NaN
    in first position is returned. *)
Definition fmin (a b : float) : float := if flt b a then b else a.

Definition fmax (a b : float) : float := if flt a b then b else a.

End Py64.

(** [src/egfr.py] over binary64.  The power operator is the one thing the
    kernel's floats lack: it is the parameter [pow], and nothing is assumed
    of it but its type. *)
Module Egfr64.

Import PrimFloat.

#[local] Set Warnings "-inexact-float".

Local Open Scope float_scope.

Local Notation "x <~ m ;; k" := (Py64.bind m (fun x => k))
  (at level 61, m at next level, right associativity).

Definition scr_to_mgdl (scr_value : float) (unit : string)
  : Py64.result float :=
  if Py64.fle scr_value 0
  then Py64.Raise (Py64.ValueError "Creatinine phải > 0.")
  else if String.eqb unit "umol/L" then Py64.fdiv scr_value 88.4
  else Py64.Ok scr_value.

Definition gfr_stage_g1_g5 (gfr : float) : string * string :=
  if Py64.fge gfr 90 then ("G1", "Bình thường / cao (≥90)")
  else if Py64.fge gfr 60 then ("G2", "Giảm nhẹ (60–89)")
  else if Py64.fge gfr 45 then ("G3a", "Giảm nhẹ–vừa (45–59)")
  else if Py64.fge gfr 30 then ("G3b", "Giảm vừa–nặng (30–44)")
  else if Py64.fge gfr 15 then ("G4", "Giảm nặng (15–29)")
  else ("G5", "Suy thận giai đoạn cuối (<15)").

Definition crcl_cockcroft_gault (scr_mgdl : float) (age : Z) (sex : string)
    (weight_kg : float) : Py64.result float :=
  if (age <? 18)%Z then
    Py64.Raise (Py64.ValueError
      "Cockcroft–Gault: thường dùng cho người lớn (>=18 tuổi).")
  else if Py64.fle weight_kg 0
  then Py64.Raise (Py64.ValueError "Cân nặng phải > 0.")
  else
    a <~ Py64.float_of_int age ;;
    crcl <~ Py64.fdiv ((140.0 - a) * weight_kg) (72.0 * scr_mgdl) ;;
    Py64.Ok (if String.eqb sex "female" then crcl * 0.85 else crcl).

Section Power.

Variable pow : float -> float -> Py64.pow_outcome.

Definition fpow (x y : float) : Py64.result float := Py64.of_pow (pow x y).

Definition egfr_ckd_epi_2021 (scr_mgdl : float) (age : Z) (sex : string)
  : Py64.result float :=
  if (age <? 18)%Z then
    Py64.Raise (Py64.ValueError
      "CKD-EPI 2021: áp dụng cho người lớn (>=18 tuổi).")
  else
    let kappa := if String.eqb sex "female" then 0.7 else 0.9 in
    let alpha := if String.eqb sex "female" then -0.241 else -0.302 in
    let female_factor := if String.eqb sex "female" then 1.012 else 1.0 in
    ratio <~ Py64.fdiv scr_mgdl kappa ;;
    let mn := Py64.fmin ratio 1.0 in
    let mx := Py64.fmax ratio 1.0 in
    p1 <~ fpow mn alpha ;;
    p2 <~ fpow mx (-1.200) ;;
    a <~ Py64.float_of_int age ;;
    p3 <~ fpow 0.9938 a ;;
    Py64.Ok (142.0 * p1 * p2 * p3 * female_factor).

Definition egfr_ckd_epi_2009 (scr_mgdl : float) (age : Z) (sex : string)
    (black : bool) : Py64.result float :=
  if (age <? 18)%Z then
    Py64.Raise (Py64.ValueError
      "CKD-EPI 2009: áp dụng cho người lớn (>=18 tuổi).")
  else
    let kappa := if String.eqb sex "female" then 0.7 else 0.9 in
    let alpha := if String.eqb sex "female" then -0.329 else -0.411 in
    ratio <~ Py64.fdiv scr_mgdl kappa ;;
    let mn := Py64.fmin ratio 1.0 in
    let mx := Py64.fmax ratio 1.0 in
    let female_factor := if String.eqb sex "female" then 1.018 else 1.0 in
    let black_factor := if black then 1.159 else 1.0 in
    p1 <~ fpow mn alpha ;;
    p2 <~ fpow mx (-1.209) ;;
    a <~ Py64.float_of_int age ;;
    p3 <~ fpow 0.993 a ;;
    Py64.Ok (141.0 * p1 * p2 * p3 * female_factor * black_factor).

Definition egfr_mdrd_idms (scr_mgdl : float) (age : Z) (sex : string)
    (black : bool) : Py64.result float :=
  if (age <? 18)%Z then
    Py64.Raise (Py64.ValueError "MDRD: áp dụng cho người lớn (>=18 tuổi).")
  else
    let female_factor := if String.eqb sex "female" then 0.742 else 1.0 in
    let black_factor := if black then 1.212 else 1.0 in
    p1 <~ fpow scr_mgdl (-1.154) ;;
    a <~ Py64.float_of_int age ;;
    p2 <~ fpow a (-0.203) ;;
    Py64.Ok (175.0 * p1 * p2 * female_factor * black_factor).

Record KidneyResult : Type := mkKidneyResult {
  timestamp : string;
  method : string;
  age : Z;
  sex : string;
  scr_value : float;
  scr_unit : string;
  scr_mgdl : float;
  black : option bool;
  weight_kg : option float;
  value : float;
  value_unit : string;
  stage : string;
  stage_text : string;
  notes : string
}.

Record branch : Type := mkBranch {
  b_val : float;
  b_unit : string;
  b_notes : string;
  b_stage : string * string;
  b_blk : option bool;
  b_w : option float
}.

Definition compute_kidney_function (now : string) (method : string) (age : Z)
    (sex : string) (scr_value : float) (scr_unit : string) (black : bool)
    (weight_kg : option float) : Py64.result KidneyResult :=
  scr_mgdl <~ scr_to_mgdl scr_value scr_unit ;;
  b <~ (if String.eqb method "CKD-EPI 2021" then
          val <~ egfr_ckd_epi_2021 scr_mgdl age sex ;;
          Py64.Ok (mkBranch val "mL/min/1.73m²"
                "eGFR chuẩn hoá 1.73m² (CKD-EPI 2021, không chủng tộc)."
                (gfr_stage_g1_g5 val) None None)
        else if String.eqb method "CKD-EPI 2009" then
          val <~ egfr_ckd_epi_2009 scr_mgdl age sex black ;;
          Py64.Ok (mkBranch val "mL/min/1.73m²"
                "eGFR chuẩn hoá 1.73m² (CKD-EPI 2009). Có tuỳ chọn hệ số người da đen."
                (gfr_stage_g1_g5 val) (Some black) None)
        else if String.eqb method "MDRD (IDMS)" then
          val <~ egfr_mdrd_idms scr_mgdl age sex black ;;
          Py64.Ok (mkBranch val "mL/min/1.73m²"
                "eGFR chuẩn hoá 1.73m² (MDRD IDMS). Có tuỳ chọn hệ số người da đen."
                (gfr_stage_g1_g5 val) (Some black) None)
        else if String.eqb method "Cockcroft-Gault" then
          match weight_kg with
          | None =>
              Py64.Raise (Py64.ValueError "Cockcroft–Gault cần nhập cân nặng.")
          | Some weight =>
              val <~ crcl_cockcroft_gault scr_mgdl age sex weight ;;
              Py64.Ok (mkBranch val "mL/min"
                    "CrCl (Cockcroft–Gault) KHÔNG chuẩn hoá 1.73m²; thường dùng chỉnh liều thuốc."
                    (gfr_stage_g1_g5 val) None (Some weight))
          end
        else Py64.Raise (Py64.ValueError "Phương pháp không hợp lệ.")) ;;
  Py64.Ok (mkKidneyResult now method age sex scr_value scr_unit scr_mgdl
        (b_blk b) (b_w b) (b_val b) (b_unit b)
        (fst (b_stage b)) (snd (b_stage b)) (b_notes b)).

End Power.

(** The triggers of InvalidInput, read on floats: a creatinine or a weight
    is non-positive when [<= 0] holds of it. *)
Definition trigger (method : string) (age : Z) (creatinine : float)
    (weight : option float) : Prop :=
  Py64.fle creatinine 0 = true
  \/ (age < 18)%Z
  \/ (method = Spec.method_str Spec.Cockcroft_Gault /\ weight = None)
  \/ (method = Spec.method_str Spec.Cockcroft_Gault
      /\ exists w, weight = Some w /\ Py64.fle w 0 = true)
  \/ (forall k, method <> Spec.method_str k).

Definition InvalidInput {A : Type} (r : Py64.result A) : Prop :=
  exists msg, r = Py64.Raise (Py64.ValueError msg).

End Egfr64.

(** ** Facts about the runtime fragment *)

Lemma fle_true (x y : R) : x <= y -> fle x y = true.
Proof. intros H. unfold fle. destruct (Rle_dec x y); [reflexivity | contradiction]. Qed.

Lemma fle_false (x y : R) : y < x -> fle x y = false.
Proof. intros H. unfold fle. destruct (Rle_dec x y); [lra | reflexivity]. Qed.

Lemma fle_iff (x y : R) : fle x y = true <-> x <= y.
Proof.
  unfold fle. destruct (Rle_dec x y); split; intros; try assumption;
    try reflexivity; try discriminate; contradiction.
Qed.

Lemma fle_gt_iff (x y : R) : fle x y = false <-> y < x.
Proof.
  split; [|apply fle_false].
  intros H. destruct (Rlt_le_dec y x) as [L|L]; [assumption|].
  rewrite (fle_true _ _ L) in H. discriminate.
Qed.

Lemma fge_iff (x y : R) : fge x y = true <-> y <= x.
Proof. apply fle_iff. Qed.

Lemma fge_lt_iff (x y : R) : fge x y = false <-> x < y.
Proof. apply fle_gt_iff. Qed.

Lemma fdiv_ok (x y : R) : y <> 0 -> fdiv x y = Ok (x / y).
Proof. intros H. unfold fdiv. destruct (Req_dec_T y 0); [contradiction | reflexivity]. Qed.

Lemma fdiv_zero (x : R) : fdiv x 0 = Raise ZeroDivisionError.
Proof. unfold fdiv. destruct (Req_dec_T 0 0); [reflexivity | contradiction]. Qed.

Lemma fpow_pos (x y : R) : 0 < x -> fpow x y = Ok (Rpower x y).
Proof.
  intros H. unfold fpow. destruct (Req_dec_T y 0) as [E|E].
  - subst y. now rewrite Rpower_O.
  - destruct (Rlt_dec 0 x); [reflexivity | contradiction].
Qed.

Lemma fmin_Rmin (a b : R) : fmin a b = Rmin a b.
Proof.
  unfold fmin, Rmin, flt.
  destruct (Rlt_dec b a), (Rle_dec a b); try reflexivity; lra.
Qed.

Lemma fmax_Rmax (a b : R) : fmax a b = Rmax a b.
Proof.
  unfold fmax, Rmax, flt.
  destruct (Rlt_dec a b), (Rle_dec a b); try reflexivity; lra.
Qed.

Lemma adult_age_pos (age : Z) : (18 <= age)%Z -> 18 <= IZR age.
Proof. intros H. now apply IZR_le. Qed.

(** ** Unit conversion *)

(** C2: for every creatinine value c > 0, normalising from mg/dL returns c
    unchanged and normalising from umol/L returns c / 88.4; and the
    conversion raises InvalidInput exactly when c <= 0, whatever the unit
    (zero and negative both rejected, nothing rejected above zero). *)
Theorem scr_to_mgdl_spec (c : R) :
  (0 < c ->
   scr_to_mgdl c (Spec.unit_str Spec.mg_per_dL) = Ok c
   /\ scr_to_mgdl c (Spec.unit_str Spec.umol_per_L) = Ok (c / 88.4))
  /\ (forall unit : string, InvalidInput (scr_to_mgdl c unit) <-> c <= 0).
Proof.
  split.
  - intros Hc. unfold scr_to_mgdl. rewrite (fle_false _ _ Hc). split.
    + reflexivity.
    + cbn [Spec.unit_str]. rewrite String.eqb_refl. apply fdiv_ok. lra.
  - intros unit. unfold scr_to_mgdl. split.
    + intros [msg H]. destruct (fle c 0) eqn:E.
      * now apply fle_iff.
      * destruct (String.eqb unit "umol/L").
        -- rewrite fdiv_ok in H by lra. discriminate.
        -- discriminate.
    + intros Hc. rewrite (fle_true _ _ Hc). eexists. reflexivity.
Qed.

Lemma scr_to_mgdl_spec_witness :
  scr_to_mgdl 1 (Spec.unit_str Spec.mg_per_dL) = Ok 1
  /\ scr_to_mgdl 1 (Spec.unit_str Spec.umol_per_L) = Ok (1 / 88.4).
Proof. apply (proj1 (scr_to_mgdl_spec 1)). lra. Defined.

(** The conversion always lands on a positive value. *)
Lemma scr_to_mgdl_pos (c : R) (unit : string) (m : R) :
  scr_to_mgdl c unit = Ok m -> 0 < c /\ 0 < m.
Proof.
  unfold scr_to_mgdl. intros H. destruct (fle c 0) eqn:E; [discriminate|].
  apply fle_gt_iff in E. split; [assumption|].
  destruct (String.eqb unit "umol/L").
  - rewrite fdiv_ok in H by lra. injection H as <-.
    apply Rdiv_lt_0_compat; lra.
  - now injection H as <-.
Qed.

Lemma scr_to_mgdl_ok (c : R) (unit : string) :
  0 < c -> exists m, scr_to_mgdl c unit = Ok m /\ 0 < m.
Proof.
  intros Hc. unfold scr_to_mgdl. rewrite (fle_false _ _ Hc).
  destruct (String.eqb unit "umol/L").
  - rewrite fdiv_ok by lra. eexists. split; [reflexivity|].
    apply Rdiv_lt_0_compat; lra.
  - eexists. split; [reflexivity | assumption].
Qed.

(** ** Stage classification *)

Lemma gfr_stage_bucket (v : R) :
  exists b, Spec.in_bucket v b /\ fst (gfr_stage_g1_g5 v) = Spec.stage_code b.
Proof.
  unfold gfr_stage_g1_g5.
  destruct (fge v 90) eqn:E1; [apply fge_iff in E1; now exists Spec.G1|].
  apply fge_lt_iff in E1.
  destruct (fge v 60) eqn:E2; [apply fge_iff in E2; now exists Spec.G2|].
  apply fge_lt_iff in E2.
  destruct (fge v 45) eqn:E3; [apply fge_iff in E3; now exists Spec.G3a|].
  apply fge_lt_iff in E3.
  destruct (fge v 30) eqn:E4; [apply fge_iff in E4; now exists Spec.G3b|].
  apply fge_lt_iff in E4.
  destruct (fge v 15) eqn:E5; [apply fge_iff in E5; now exists Spec.G4|].
  apply fge_lt_iff in E5. now exists Spec.G5.
Qed.

Lemma in_bucket_unique (v : R) (b1 b2 : Spec.StageBucket) :
  Spec.in_bucket v b1 -> Spec.in_bucket v b2 -> b1 = b2.
Proof. destruct b1, b2; cbn; intros; try reflexivity; lra. Qed.

Lemma stage_code_inj (b1 b2 : Spec.StageBucket) :
  Spec.stage_code b1 = Spec.stage_code b2 -> b1 = b2.
Proof. destruct b1, b2; cbn; intros H; try reflexivity; discriminate. Qed.

Lemma gfr_stage_iff (v : R) (b : Spec.StageBucket) :
  fst (gfr_stage_g1_g5 v) = Spec.stage_code b <-> Spec.in_bucket v b.
Proof.
  destruct (gfr_stage_bucket v) as [b0 [Hin Hcode]]. split.
  - intros H. rewrite Hcode in H. apply stage_code_inj in H. now subst.
  - intros H. now rewrite (in_bucket_unique v b b0 H Hin).
Qed.

(** C3: classification is total and has no error path: every real value
    gets exactly one bucket, and that bucket is G1 iff v >= 90, G2 iff
    60 <= v < 90, G3a iff 45 <= v < 60, G3b iff 30 <= v < 45, G4 iff
    15 <= v < 30 and G5 iff v < 15 (zero and negatives included); the
    eight boundary values of the specification land where it says. *)
Theorem gfr_stage_total :
  (forall v : R,
     (exists! b, fst (gfr_stage_g1_g5 v) = Spec.stage_code b)
     /\ (forall b, fst (gfr_stage_g1_g5 v) = Spec.stage_code b
                   <-> Spec.in_bucket v b))
  /\ fst (gfr_stage_g1_g5 90) = "G1"
  /\ fst (gfr_stage_g1_g5 89.999) = "G2"
  /\ fst (gfr_stage_g1_g5 60) = "G2"
  /\ fst (gfr_stage_g1_g5 59.999) = "G3a"
  /\ fst (gfr_stage_g1_g5 45) = "G3a"
  /\ fst (gfr_stage_g1_g5 30) = "G3b"
  /\ fst (gfr_stage_g1_g5 15) = "G4"
  /\ fst (gfr_stage_g1_g5 14.999) = "G5"
  /\ fst (gfr_stage_g1_g5 0) = "G5"
  /\ fst (gfr_stage_g1_g5 (-1)) = "G5".
Proof.
  split.
  - intros v. split; [|apply gfr_stage_iff].
    destruct (gfr_stage_bucket v) as [b [_ Hcode]].
    exists b. split; [assumption|].
    intros b' H. rewrite Hcode in H. now apply stage_code_inj.
  - repeat split.
    + apply (gfr_stage_iff _ Spec.G1); cbn; lra.
    + apply (gfr_stage_iff _ Spec.G2); cbn; lra.
    + apply (gfr_stage_iff _ Spec.G2); cbn; lra.
    + apply (gfr_stage_iff _ Spec.G3a); cbn; lra.
    + apply (gfr_stage_iff _ Spec.G3a); cbn; lra.
    + apply (gfr_stage_iff _ Spec.G3b); cbn; lra.
    + apply (gfr_stage_iff _ Spec.G4); cbn; lra.
    + apply (gfr_stage_iff _ Spec.G5); cbn; lra.
    + apply (gfr_stage_iff _ Spec.G5); cbn; lra.
    + apply (gfr_stage_iff _ Spec.G5); cbn; lra.
Qed.

(** ** The formula engine *)


Lemma adult_not_minor (age : Z) : (18 <= age)%Z -> (age <? 18)%Z = false.
Proof. intros H. now apply Z.ltb_ge. Qed.

Lemma one_point_zero : 1.0 = 1.
Proof. lra. Qed.

Lemma fmin_ratio_pos (x : R) : 0 < x -> 0 < fmin x 1.0.
Proof.
  intros H. rewrite fmin_Rmin. apply Rmin_glb_lt; lra.
Qed.

Lemma fmax_ratio_pos (x : R) : 0 < fmax x 1.0.
Proof.
  rewrite fmax_Rmax. apply Rlt_le_trans with 1.0; [lra | apply Rmax_r].
Qed.







(** Why the formulas are stated for the normaliser's outputs only: called
    directly on a zero creatinine, the power and the division raise
    [ZeroDivisionError], which is not InvalidInput.  Inside the assembler
    this cannot happen ([scr_to_mgdl_pos]). *)
Remark egfr_mdrd_idms_zero_creatinine (age : Z) (sex : string) (black : bool) :
  (18 <= age)%Z -> egfr_mdrd_idms 0 age sex black = Raise ZeroDivisionError.
Proof.
  intros Ha. unfold egfr_mdrd_idms, fpow. rewrite (adult_not_minor _ Ha).
  destruct (Req_dec_T (-1.154) 0) as [E|_]; [lra|].
  destruct (Rlt_dec 0 0) as [E|_]; [lra|].
  destruct (Req_dec_T 0 0) as [_|E]; [|contradiction].
  destruct (Rlt_dec (-1.154) 0) as [_|E]; [reflexivity | lra].
Qed.

Remark crcl_cockcroft_gault_zero_creatinine (age : Z) (sex : string) (w : R) :
  (18 <= age)%Z -> 0 < w ->
  crcl_cockcroft_gault 0 age sex w = Raise ZeroDivisionError.
Proof.
  intros Ha Hw. unfold crcl_cockcroft_gault.
  rewrite (adult_not_minor _ Ha), (fle_false _ _ Hw).
  replace (72.0 * 0) with 0 by lra. now rewrite fdiv_zero.
Qed.

(** ** The result assembler *)

Section Compute.

Variables (now : string) (age : Z) (sex : string).
Variables (scr_value : R) (scr_unit : string).
Variables (black : bool) (weight_kg : option R).

Lemma compute_no_creatinine (method : string) (e : exn) :
  scr_to_mgdl scr_value scr_unit = Raise e ->
  compute_kidney_function now method age sex scr_value scr_unit black weight_kg
  = Raise e.
Proof. intros H. unfold compute_kidney_function. now rewrite H. Qed.

Lemma compute_ckd_epi_2021 (m : R) :
  scr_to_mgdl scr_value scr_unit = Ok m ->
  compute_kidney_function now "CKD-EPI 2021" age sex scr_value scr_unit
    black weight_kg
  = (val <- egfr_ckd_epi_2021 m age sex ;;
     Ok (assembled_record now age sex scr_value scr_unit "CKD-EPI 2021" m None None val "mL/min/1.73m²"
           "eGFR chuẩn hoá 1.73m² (CKD-EPI 2021, không chủng tộc).")).
Proof.
  intros H. unfold compute_kidney_function. rewrite H. cbn [bind].
  rewrite String.eqb_refl.
  now destruct (egfr_ckd_epi_2021 m age sex).
Qed.

Lemma compute_ckd_epi_2009 (m : R) :
  scr_to_mgdl scr_value scr_unit = Ok m ->
  compute_kidney_function now "CKD-EPI 2009" age sex scr_value scr_unit
    black weight_kg
  = (val <- egfr_ckd_epi_2009 m age sex black ;;
     Ok (assembled_record now age sex scr_value scr_unit "CKD-EPI 2009" m (Some black) None val "mL/min/1.73m²"
           "eGFR chuẩn hoá 1.73m² (CKD-EPI 2009). Có tuỳ chọn hệ số người da đen.")).
Proof.
  intros H. unfold compute_kidney_function. rewrite H. cbn [bind].
  replace (String.eqb "CKD-EPI 2009" "CKD-EPI 2021") with false by reflexivity.
  rewrite String.eqb_refl.
  now destruct (egfr_ckd_epi_2009 m age sex black).
Qed.

Lemma compute_mdrd_idms (m : R) :
  scr_to_mgdl scr_value scr_unit = Ok m ->
  compute_kidney_function now "MDRD (IDMS)" age sex scr_value scr_unit
    black weight_kg
  = (val <- egfr_mdrd_idms m age sex black ;;
     Ok (assembled_record now age sex scr_value scr_unit "MDRD (IDMS)" m (Some black) None val "mL/min/1.73m²"
           "eGFR chuẩn hoá 1.73m² (MDRD IDMS). Có tuỳ chọn hệ số người da đen.")).
Proof.
  intros H. unfold compute_kidney_function. rewrite H. cbn [bind].
  replace (String.eqb "MDRD (IDMS)" "CKD-EPI 2021") with false by reflexivity.
  replace (String.eqb "MDRD (IDMS)" "CKD-EPI 2009") with false by reflexivity.
  rewrite String.eqb_refl.
  now destruct (egfr_mdrd_idms m age sex black).
Qed.

Lemma compute_cockcroft_gault (m : R) :
  scr_to_mgdl scr_value scr_unit = Ok m ->
  compute_kidney_function now "Cockcroft-Gault" age sex scr_value scr_unit
    black weight_kg
  = match weight_kg with
    | None => Raise (ValueError "Cockcroft–Gault cần nhập cân nặng.")
    | Some weight =>
        val <- crcl_cockcroft_gault m age sex weight ;;
        Ok (assembled_record now age sex scr_value scr_unit "Cockcroft-Gault" m None (Some weight) val "mL/min"
              "CrCl (Cockcroft–Gault) KHÔNG chuẩn hoá 1.73m²; thường dùng chỉnh liều thuốc.")
    end.
Proof.
  intros H. unfold compute_kidney_function. rewrite H. cbn [bind].
  replace (String.eqb "Cockcroft-Gault" "CKD-EPI 2021") with false by reflexivity.
  replace (String.eqb "Cockcroft-Gault" "CKD-EPI 2009") with false by reflexivity.
  replace (String.eqb "Cockcroft-Gault" "MDRD (IDMS)") with false by reflexivity.
  rewrite String.eqb_refl.
  destruct weight_kg as [weight|]; [|reflexivity].
  now destruct (crcl_cockcroft_gault m age sex weight).
Qed.

Lemma compute_unrecognized (method : string) (m : R) :
  scr_to_mgdl scr_value scr_unit = Ok m ->
  (forall k, method <> Spec.method_str k) ->
  compute_kidney_function now method age sex scr_value scr_unit black weight_kg
  = Raise (ValueError "Phương pháp không hợp lệ.").
Proof.
  intros H Hk. unfold compute_kidney_function. rewrite H. cbn [bind].
  destruct (String.eqb_spec method "CKD-EPI 2021") as [E|_];
    [elim (Hk Spec.CKD_EPI_2021 E)|].
  destruct (String.eqb_spec method "CKD-EPI 2009") as [E|_];
    [elim (Hk Spec.CKD_EPI_2009 E)|].
  destruct (String.eqb_spec method "MDRD (IDMS)") as [E|_];
    [elim (Hk Spec.MDRD_IDMS E)|].
  destruct (String.eqb_spec method "Cockcroft-Gault") as [E|_];
    [elim (Hk Spec.Cockcroft_Gault E)|].
  reflexivity.
Qed.

End Compute.

Lemma method_known_dec (method : string) :
  {k | method = Spec.method_str k} + {forall k, method <> Spec.method_str k}.
Proof.
  destruct (string_dec method "CKD-EPI 2021") as [E|N1];
    [left; now exists Spec.CKD_EPI_2021|].
  destruct (string_dec method "CKD-EPI 2009") as [E|N2];
    [left; now exists Spec.CKD_EPI_2009|].
  destruct (string_dec method "MDRD (IDMS)") as [E|N3];
    [left; now exists Spec.MDRD_IDMS|].
  destruct (string_dec method "Cockcroft-Gault") as [E|N4];
    [left; now exists Spec.Cockcroft_Gault|].
  right. intros [] E; cbn in E; contradiction.
Qed.

(** *** How each formula behaves on a minor and on an adult *)

Lemma ckd_epi_2021_minor (m : R) (age : Z) (sex : string) :
  (age < 18)%Z -> InvalidInput (egfr_ckd_epi_2021 m age sex).
Proof.
  intros H. unfold egfr_ckd_epi_2021.
  rewrite (proj2 (Z.ltb_lt _ _) H). eexists; reflexivity.
Qed.

Lemma ckd_epi_2009_minor (m : R) (age : Z) (sex : string) (black : bool) :
  (age < 18)%Z -> InvalidInput (egfr_ckd_epi_2009 m age sex black).
Proof.
  intros H. unfold egfr_ckd_epi_2009.
  rewrite (proj2 (Z.ltb_lt _ _) H). eexists; reflexivity.
Qed.

Lemma mdrd_idms_minor (m : R) (age : Z) (sex : string) (black : bool) :
  (age < 18)%Z -> InvalidInput (egfr_mdrd_idms m age sex black).
Proof.
  intros H. unfold egfr_mdrd_idms.
  rewrite (proj2 (Z.ltb_lt _ _) H). eexists; reflexivity.
Qed.

Lemma cockcroft_gault_minor (m : R) (age : Z) (sex : string) (w : R) :
  (age < 18)%Z -> InvalidInput (crcl_cockcroft_gault m age sex w).
Proof.
  intros H. unfold crcl_cockcroft_gault.
  rewrite (proj2 (Z.ltb_lt _ _) H). eexists; reflexivity.
Qed.

Lemma cockcroft_gault_no_weight (m : R) (age : Z) (sex : string) (w : R) :
  w <= 0 -> InvalidInput (crcl_cockcroft_gault m age sex w).
Proof.
  intros H. unfold crcl_cockcroft_gault.
  destruct (age <? 18)%Z; [eexists; reflexivity|].
  rewrite (fle_true _ _ H). eexists; reflexivity.
Qed.

Lemma ckd_epi_2021_adult (m : R) (age : Z) (sex : string) :
  0 < m -> (18 <= age)%Z -> exists v, egfr_ckd_epi_2021 m age sex = Ok v.
Proof.
  intros Hm Ha. unfold egfr_ckd_epi_2021. rewrite (adult_not_minor _ Ha).
  set (kappa := if String.eqb sex "female" then 0.7 else 0.9).
  assert (Hk : 0 < kappa) by (subst kappa; destruct (String.eqb sex "female"); lra).
  rewrite fdiv_ok by lra. cbn [bind].
  assert (Hr : 0 < m / kappa) by now apply Rdiv_lt_0_compat.
  rewrite (fpow_pos _ _ (fmin_ratio_pos _ Hr)). cbn [bind].
  rewrite (fpow_pos _ _ (fmax_ratio_pos _)). cbn [bind].
  rewrite fpow_pos by lra. cbn [bind]. eexists; reflexivity.
Qed.

Lemma ckd_epi_2009_adult (m : R) (age : Z) (sex : string) (black : bool) :
  0 < m -> (18 <= age)%Z -> exists v, egfr_ckd_epi_2009 m age sex black = Ok v.
Proof.
  intros Hm Ha. unfold egfr_ckd_epi_2009. rewrite (adult_not_minor _ Ha).
  set (kappa := if String.eqb sex "female" then 0.7 else 0.9).
  assert (Hk : 0 < kappa) by (subst kappa; destruct (String.eqb sex "female"); lra).
  rewrite fdiv_ok by lra. cbn [bind].
  assert (Hr : 0 < m / kappa) by now apply Rdiv_lt_0_compat.
  rewrite (fpow_pos _ _ (fmin_ratio_pos _ Hr)). cbn [bind].
  rewrite (fpow_pos _ _ (fmax_ratio_pos _)). cbn [bind].
  rewrite fpow_pos by lra. cbn [bind]. eexists; reflexivity.
Qed.

Lemma mdrd_idms_adult (m : R) (age : Z) (sex : string) (black : bool) :
  0 < m -> (18 <= age)%Z -> exists v, egfr_mdrd_idms m age sex black = Ok v.
Proof.
  intros Hm Ha. unfold egfr_mdrd_idms. rewrite (adult_not_minor _ Ha).
  rewrite (fpow_pos _ _ Hm). cbn [bind].
  rewrite fpow_pos by (apply adult_age_pos in Ha; lra).
  cbn [bind]. eexists; reflexivity.
Qed.

Lemma cockcroft_gault_adult (m : R) (age : Z) (sex : string) (w : R) :
  0 < m -> (18 <= age)%Z -> 0 < w ->
  exists v, crcl_cockcroft_gault m age sex w = Ok v.
Proof.
  intros Hm Ha Hw. unfold crcl_cockcroft_gault.
  rewrite (adult_not_minor _ Ha), (fle_false _ _ Hw).
  rewrite fdiv_ok by lra. cbn [bind]. eexists; reflexivity.
Qed.

Lemma InvalidInput_bind {A B : Type} (c : result A) (k : A -> result B) :
  InvalidInput c -> InvalidInput (bind c k).
Proof. intros [msg ->]. now exists msg. Qed.

Lemma creatinine_rejected (c : R) (unit : string) :
  c <= 0 -> scr_to_mgdl c unit = Raise (ValueError "Creatinine phải > 0.").
Proof. intros H. unfold scr_to_mgdl. now rewrite (fle_true _ _ H). Qed.

(** *** Success and failure of the assembler *)

Ltac no_trigger :=
  let H := fresh "H" in
  intros [H|[H|[[H _]|[[H _]|H]]]];
  [ lra | lia | discriminate H | discriminate H | ].

(** In exact arithmetic every call either meets a trigger and raises
    [ValueError], or meets none and returns a record. *)
Lemma compute_outcome (now method : string) (age : Z) (sex : string)
    (scr_value : R) (scr_unit : string) (black : bool) (weight_kg : option R) :
  (Spec.trigger method age scr_value weight_kg
   /\ InvalidInput (compute_kidney_function now method age sex scr_value
                      scr_unit black weight_kg))
  \/ (~ Spec.trigger method age scr_value weight_kg
      /\ exists r, compute_kidney_function now method age sex scr_value
                     scr_unit black weight_kg = Ok r).
Proof.
  destruct (Rle_lt_dec scr_value 0) as [Hneg|Hpos].
  { left. split; [now left|].
    rewrite (compute_no_creatinine _ _ _ _ _ _ _ _ _
               (creatinine_rejected _ scr_unit Hneg)).
    eexists; reflexivity. }
  destruct (scr_to_mgdl_ok scr_value scr_unit Hpos) as [m [Hm Hmpos]].
  destruct (method_known_dec method) as [[k ->]|Hunknown].
  2:{ left. split; [do 4 right; assumption|].
      rewrite (compute_unrecognized _ _ _ _ _ _ _ _ _ Hm Hunknown).
      eexists; reflexivity. }
  destruct (Z.lt_ge_cases age 18) as [Hminor|Hadult].
  { left. split; [right; now left|].
    destruct k; cbn [Spec.method_str].
    - rewrite (compute_ckd_epi_2021 _ _ _ _ _ _ _ _ Hm).
      apply InvalidInput_bind. now apply ckd_epi_2021_minor.
    - rewrite (compute_ckd_epi_2009 _ _ _ _ _ _ _ _ Hm).
      apply InvalidInput_bind. now apply ckd_epi_2009_minor.
    - rewrite (compute_mdrd_idms _ _ _ _ _ _ _ _ Hm).
      apply InvalidInput_bind. now apply mdrd_idms_minor.
    - rewrite (compute_cockcroft_gault _ _ _ _ _ _ _ _ Hm).
      destruct weight_kg as [w|]; [|eexists; reflexivity].
      apply InvalidInput_bind. now apply cockcroft_gault_minor. }
  destruct k; cbn [Spec.method_str].
  - right. split.
    + no_trigger. exact (H Spec.CKD_EPI_2021 eq_refl).
    + rewrite (compute_ckd_epi_2021 _ _ _ _ _ _ _ _ Hm).
      destruct (ckd_epi_2021_adult m age sex Hmpos Hadult) as [v ->].
      eexists; reflexivity.
  - right. split.
    + no_trigger. exact (H Spec.CKD_EPI_2009 eq_refl).
    + rewrite (compute_ckd_epi_2009 _ _ _ _ _ _ _ _ Hm).
      destruct (ckd_epi_2009_adult m age sex black Hmpos Hadult) as [v ->].
      eexists; reflexivity.
  - right. split.
    + no_trigger. exact (H Spec.MDRD_IDMS eq_refl).
    + rewrite (compute_mdrd_idms _ _ _ _ _ _ _ _ Hm).
      destruct (mdrd_idms_adult m age sex black Hmpos Hadult) as [v ->].
      eexists; reflexivity.
  - rewrite (compute_cockcroft_gault _ _ _ _ _ _ _ _ Hm).
    destruct weight_kg as [w|].
    2:{ left. split; [|eexists; reflexivity].
        right; right; left. now split. }
    destruct (Rle_lt_dec w 0) as [Hw|Hw].
    + left. split.
      * right; right; right; left. split; [reflexivity|]. now exists w.
      * apply InvalidInput_bind. now apply cockcroft_gault_no_weight.
    + right. split.
      * intros [H|[H|[[_ H]|[[_ [w' [E H]]]|H]]]];
          [lra | lia | discriminate H | injection E as <-; lra | ].
        exact (H Spec.Cockcroft_Gault eq_refl).
      * destruct (cockcroft_gault_adult m age sex w Hmpos Hadult Hw) as [v ->].
        eexists; reflexivity.
Qed.

(** What a returned record is made of, branch by branch. *)
Lemma compute_inv (now method : string) (age : Z) (sex : string)
    (scr_value : R) (scr_unit : string) (black : bool) (weight_kg : option R)
    (r : KidneyResult) :
  compute_kidney_function now method age sex scr_value scr_unit black weight_kg
  = Ok r ->
  exists (m val : R) (notes : string),
    scr_to_mgdl scr_value scr_unit = Ok m
    /\ ((method = "CKD-EPI 2021"
         /\ egfr_ckd_epi_2021 m age sex = Ok val
         /\ r = assembled_record now age sex scr_value scr_unit method m
                  None None val "mL/min/1.73m²" notes)
        \/ (method = "CKD-EPI 2009"
            /\ egfr_ckd_epi_2009 m age sex black = Ok val
            /\ r = assembled_record now age sex scr_value scr_unit method m
                     (Some black) None val "mL/min/1.73m²" notes)
        \/ (method = "MDRD (IDMS)"
            /\ egfr_mdrd_idms m age sex black = Ok val
            /\ r = assembled_record now age sex scr_value scr_unit method m
                     (Some black) None val "mL/min/1.73m²" notes)
        \/ (method = "Cockcroft-Gault"
            /\ exists w, weight_kg = Some w
               /\ crcl_cockcroft_gault m age sex w = Ok val
               /\ r = assembled_record now age sex scr_value scr_unit method m
                        None (Some w) val "mL/min" notes)).
Proof.
  intros H.
  destruct (scr_to_mgdl scr_value scr_unit) as [m|e] eqn:Hm.
  2:{ rewrite (compute_no_creatinine _ _ _ _ _ _ _ _ _ Hm) in H. discriminate. }
  destruct (method_known_dec method) as [[k ->]|Hunknown].
  2:{ rewrite (compute_unrecognized _ _ _ _ _ _ _ _ _ Hm Hunknown) in H.
      discriminate. }
  exists m. destruct k; cbn [Spec.method_str] in *.
  - rewrite (compute_ckd_epi_2021 _ _ _ _ _ _ _ _ Hm) in H.
    destruct (egfr_ckd_epi_2021 m age sex) as [val|] eqn:Hv; [|discriminate].
    cbn [bind] in H. injection H as <-. exists val. eexists.
    split; [reflexivity|]. left. repeat split; reflexivity.
  - rewrite (compute_ckd_epi_2009 _ _ _ _ _ _ _ _ Hm) in H.
    destruct (egfr_ckd_epi_2009 m age sex black) as [val|] eqn:Hv; [|discriminate].
    cbn [bind] in H. injection H as <-. exists val. eexists.
    split; [reflexivity|]. right; left. repeat split; reflexivity.
  - rewrite (compute_mdrd_idms _ _ _ _ _ _ _ _ Hm) in H.
    destruct (egfr_mdrd_idms m age sex black) as [val|] eqn:Hv; [|discriminate].
    cbn [bind] in H. injection H as <-. exists val. eexists.
    split; [reflexivity|]. right; right; left. repeat split; reflexivity.
  - rewrite (compute_cockcroft_gault _ _ _ _ _ _ _ _ Hm) in H.
    destruct weight_kg as [w|]; [|discriminate].
    destruct (crcl_cockcroft_gault m age sex w) as [val|] eqn:Hv; [|discriminate].
    cbn [bind] in H. injection H as <-. exists val. eexists.
    split; [reflexivity|]. right; right; right. split; [reflexivity|].
    exists w. repeat split; try reflexivity. assumption.
Qed.

Lemma scr_to_mgdl_mgdl (c : R) : 0 < c -> scr_to_mgdl c "mg/dL" = Ok c.
Proof. intros H. unfold scr_to_mgdl. now rewrite (fle_false _ _ H). Qed.

(** Scenario B runs to its record. *)
Lemma scenario_b_runs (now : string) (black : bool) :
  compute_kidney_function now "Cockcroft-Gault" 60 "female" 1.0 "mg/dL"
    black (Some 60)
  = Ok (scenario_b_record now).
Proof.
  rewrite (compute_cockcroft_gault _ _ _ _ _ _ _ 1.0)
    by (apply scr_to_mgdl_mgdl; lra).
  unfold crcl_cockcroft_gault.
  replace (60 <? 18)%Z with false by reflexivity.
  rewrite fle_false by lra. rewrite fdiv_ok by lra. reflexivity.
Qed.

(** C10: whenever the creatinine value is <= 0 the assembler raises the
    non-positive-creatinine error, whatever the method selector, age and
    weight are: the conversion runs before the dispatch and before every
    other check. *)
Theorem compute_creatinine_checked_first (now method : string) (age : Z)
    (sex : string) (scr_value : R) (scr_unit : string) (black : bool)
    (weight_kg : option R) :
  scr_value <= 0 ->
  compute_kidney_function now method age sex scr_value scr_unit black weight_kg
  = Raise (ValueError "Creatinine phải > 0.").
Proof.
  intros H. apply compute_no_creatinine. now apply creatinine_rejected.
Qed.

Lemma compute_creatinine_checked_first_witness :
  compute_kidney_function "2026-01-01 12:00:00" "no such method" 17 "male"
    0 "mg/dL" false (Some 0)
  = Raise (ValueError "Creatinine phải > 0.").
Proof. apply compute_creatinine_checked_first. lra. Defined.

(** C1: whenever the assembler succeeds, the record's filtration value is
    what the selected method's formula returns on the creatinine value
    normalised to mg/dL, its stage code and stage text are the
    classification of that value, and its unit label is mL/min/1.73m² for
    CKD-EPI 2021, CKD-EPI 2009 and MDRD (IDMS) and mL/min for
    Cockcroft-Gault. *)
Theorem compute_value_stage_unit (now method : string) (age : Z)
    (sex : string) (scr_value : R) (scr_unit : string) (black : bool)
    (weight_kg : option R) (r : KidneyResult) :
  compute_kidney_function now method age sex scr_value scr_unit black weight_kg
  = Ok r ->
  exists m : R,
    scr_to_mgdl scr_value scr_unit = Ok m
    /\ ((method = Spec.method_str Spec.CKD_EPI_2021
         /\ egfr_ckd_epi_2021 m age sex = Ok (value r)
         /\ value_unit r = "mL/min/1.73m²")
        \/ (method = Spec.method_str Spec.CKD_EPI_2009
            /\ egfr_ckd_epi_2009 m age sex black = Ok (value r)
            /\ value_unit r = "mL/min/1.73m²")
        \/ (method = Spec.method_str Spec.MDRD_IDMS
            /\ egfr_mdrd_idms m age sex black = Ok (value r)
            /\ value_unit r = "mL/min/1.73m²")
        \/ (method = Spec.method_str Spec.Cockcroft_Gault
            /\ exists w, weight_kg = Some w
               /\ crcl_cockcroft_gault m age sex w = Ok (value r)
               /\ value_unit r = "mL/min"))
    /\ (stage r, stage_text r) = gfr_stage_g1_g5 (value r).
Proof.
  intros H. apply compute_inv in H.
  destruct H as [m [val [notes [Hm H]]]]. exists m. split; [assumption|].
  destruct H as [[E [F ->]]|[[E [F ->]]|[[E [F ->]]|[E [w [W [F ->]]]]]]];
    cbn [value value_unit stage stage_text assembled_record];
    (split; [|now destruct (gfr_stage_g1_g5 val)]).
  - left. now repeat split.
  - right; left. now repeat split.
  - right; right; left. now repeat split.
  - right; right; right. split; [assumption|]. exists w. now repeat split.
Qed.

Lemma compute_value_stage_unit_witness :
  exists m : R,
    scr_to_mgdl 1.0 "mg/dL" = Ok m
    /\ ((Spec.method_str Spec.Cockcroft_Gault = Spec.method_str Spec.CKD_EPI_2021
         /\ egfr_ckd_epi_2021 m 60 "female" = Ok (value (scenario_b_record "t"))
         /\ value_unit (scenario_b_record "t") = "mL/min/1.73m²")
        \/ (Spec.method_str Spec.Cockcroft_Gault = Spec.method_str Spec.CKD_EPI_2009
            /\ egfr_ckd_epi_2009 m 60 "female" false
               = Ok (value (scenario_b_record "t"))
            /\ value_unit (scenario_b_record "t") = "mL/min/1.73m²")
        \/ (Spec.method_str Spec.Cockcroft_Gault = Spec.method_str Spec.MDRD_IDMS
            /\ egfr_mdrd_idms m 60 "female" false
               = Ok (value (scenario_b_record "t"))
            /\ value_unit (scenario_b_record "t") = "mL/min/1.73m²")
        \/ (Spec.method_str Spec.Cockcroft_Gault
            = Spec.method_str Spec.Cockcroft_Gault
            /\ exists w, Some 60 = Some w
               /\ crcl_cockcroft_gault m 60 "female" w
                  = Ok (value (scenario_b_record "t"))
               /\ value_unit (scenario_b_record "t") = "mL/min"))
    /\ (stage (scenario_b_record "t"), stage_text (scenario_b_record "t"))
       = gfr_stage_g1_g5 (value (scenario_b_record "t")).
Proof.
  apply (compute_value_stage_unit "t" (Spec.method_str Spec.Cockcroft_Gault)
           60 "female" 1.0 "mg/dL" false (Some 60) (scenario_b_record "t")).
  apply scenario_b_runs.
Defined.

(** ** What the record echoes *)

(** C9, as stated, fails: on the well-formed input CKD-EPI 2021, 40 years,
    male, 1.0 mg/dL, race flag false, no weight, the assembler returns a
    record whose race-flag field is empty rather than the supplied flag. *)
Lemma race_flag_not_echoed :
  exists r,
    compute_kidney_function "2026-01-01 12:00:00" "CKD-EPI 2021" 40 "male"
      1.0 "mg/dL" false None = Ok r
    /\ black r = None
    /\ black r <> Some false.
Proof.
  destruct (ckd_epi_2021_adult 1.0 40 "male") as [v Hv]; [lra | lia |].
  eexists. split.
  - rewrite (compute_ckd_epi_2021 _ _ _ _ _ _ _ 1.0)
      by (apply scr_to_mgdl_mgdl; lra).
    rewrite Hv. reflexivity.
  - cbn. split; [reflexivity | discriminate].
Qed.

(** C9, amended: a returned record echoes the method, age, sex, creatinine
    value and creatinine unit, and its normalised-creatinine field is the
    conversion of the creatinine value; its race-flag field is the supplied
    flag for CKD-EPI 2009 and MDRD (IDMS) and empty for the two methods
    without a race coefficient; its weight field is the supplied weight for
    Cockcroft-Gault and empty for the other three methods. *)
Theorem compute_echoes_inputs (now method : string) (age : Z)
    (sex : string) (scr_value : R) (scr_unit : string) (black : bool)
    (weight_kg : option R) (r : KidneyResult) :
  compute_kidney_function now method age sex scr_value scr_unit black weight_kg
  = Ok r ->
  Egfr.method r = method
  /\ Egfr.age r = age
  /\ Egfr.sex r = sex
  /\ Egfr.scr_value r = scr_value
  /\ Egfr.scr_unit r = scr_unit
  /\ scr_to_mgdl scr_value scr_unit = Ok (Egfr.scr_mgdl r)
  /\ Egfr.black r
     = (if String.eqb method "CKD-EPI 2009" || String.eqb method "MDRD (IDMS)"
        then Some black else None)
  /\ Egfr.weight_kg r
     = (if String.eqb method "Cockcroft-Gault" then weight_kg else None).
Proof.
  intros H. apply compute_inv in H.
  destruct H as [m [val [notes [Hm H]]]].
  destruct H as [[E [F ->]]|[[E [F ->]]|[[E [F ->]]|[E [w [W [F ->]]]]]]];
    subst; cbn; repeat split; assumption.
Qed.

Lemma compute_echoes_inputs_witness :
  Egfr.method (scenario_b_record "t") = "Cockcroft-Gault"
  /\ Egfr.age (scenario_b_record "t") = 60%Z
  /\ Egfr.sex (scenario_b_record "t") = "female"
  /\ Egfr.scr_value (scenario_b_record "t") = 1.0
  /\ Egfr.scr_unit (scenario_b_record "t") = "mg/dL"
  /\ scr_to_mgdl 1.0 "mg/dL" = Ok (Egfr.scr_mgdl (scenario_b_record "t"))
  /\ Egfr.black (scenario_b_record "t") = None
  /\ Egfr.weight_kg (scenario_b_record "t") = Some 60.
Proof.
  apply (compute_echoes_inputs "t" "Cockcroft-Gault" 60 "female" 1.0 "mg/dL"
           false (Some 60) (scenario_b_record "t")).
  apply scenario_b_runs.
Defined.

(** ** The weight and the method *)

(** C8, as stated, fails: the input CKD-EPI 2021, 40 years, male,
    1.0 mg/dL with a weight of 70 kg breaks the invariant (a weight is
    present and the method is not Cockcroft-Gault), yet the assembler does
    not reject it: it returns a record. *)
Lemma weight_invariant_not_enforced :
  ~ Spec.weight_iff_cockcroft_gault "CKD-EPI 2021" (Some 70)
  /\ (exists r,
        compute_kidney_function "2026-01-01 12:00:00" "CKD-EPI 2021" 40 "male"
          1.0 "mg/dL" false (Some 70) = Ok r)
  /\ ~ InvalidInput
         (compute_kidney_function "2026-01-01 12:00:00" "CKD-EPI 2021" 40
            "male" 1.0 "mg/dL" false (Some 70)).
Proof.
  assert (Hrun : exists r,
            compute_kidney_function "2026-01-01 12:00:00" "CKD-EPI 2021" 40
              "male" 1.0 "mg/dL" false (Some 70) = Ok r).
  { destruct (ckd_epi_2021_adult 1.0 40 "male") as [v Hv]; [lra | lia |].
    eexists.
    rewrite (compute_ckd_epi_2021 _ _ _ _ _ _ _ 1.0)
      by (apply scr_to_mgdl_mgdl; lra).
    rewrite Hv. reflexivity. }
  split; [|split].
  - unfold Spec.weight_iff_cockcroft_gault. intros [H _].
    assert (E : "CKD-EPI 2021" = Spec.method_str Spec.Cockcroft_Gault)
      by (apply H; discriminate).
    discriminate E.
  - exact Hrun.
  - destruct Hrun as [r Hr]. rewrite Hr. intros [msg H]. discriminate.
Qed.

(** C8, amended: the assembler enforces one direction of the invariant
    only.  With Cockcroft-Gault and no weight it fails with InvalidInput,
    and with the weight-required message whenever the creatinine value is
    positive.  A weight supplied with one of the other three methods is
    not rejected but ignored: the call returns what it returns without a
    weight.  The weight field of a returned record is non-empty exactly
    for Cockcroft-Gault. *)
Theorem weight_checked_for_cockcroft_gault_only (now : string) (age : Z)
    (sex : string) (scr_value : R) (scr_unit : string) (black : bool) :
  InvalidInput (compute_kidney_function now "Cockcroft-Gault" age sex
                  scr_value scr_unit black None)
  /\ (0 < scr_value ->
      compute_kidney_function now "Cockcroft-Gault" age sex scr_value
        scr_unit black None
      = Raise (ValueError "Cockcroft–Gault cần nhập cân nặng."))
  /\ (forall (k : Spec.Method) (w : R),
        k <> Spec.Cockcroft_Gault ->
        compute_kidney_function now (Spec.method_str k) age sex scr_value
          scr_unit black (Some w)
        = compute_kidney_function now (Spec.method_str k) age sex scr_value
            scr_unit black None)
  /\ (forall (method : string) (weight_kg : option R) (r : KidneyResult),
        compute_kidney_function now method age sex scr_value scr_unit black
          weight_kg = Ok r ->
        Spec.weight_iff_cockcroft_gault method (Egfr.weight_kg r)).
Proof.
  split; [|split; [|split]].
  - destruct (compute_outcome now "Cockcroft-Gault" age sex scr_value scr_unit
                black None) as [[_ E]|[T _]]; [assumption|].
    elim T. right; right; left. now split.
  - intros Hpos.
    destruct (scr_to_mgdl_ok scr_value scr_unit Hpos) as [m [Hm _]].
    now rewrite (compute_cockcroft_gault _ _ _ _ _ _ _ _ Hm).
  - intros k w Hk.
    destruct (scr_to_mgdl scr_value scr_unit) as [m|e] eqn:Hm.
    + destruct k; cbn [Spec.method_str]; [ | | |contradiction].
      * now rewrite !(compute_ckd_epi_2021 _ _ _ _ _ _ _ _ Hm).
      * now rewrite !(compute_ckd_epi_2009 _ _ _ _ _ _ _ _ Hm).
      * now rewrite !(compute_mdrd_idms _ _ _ _ _ _ _ _ Hm).
    + now rewrite !(compute_no_creatinine _ _ _ _ _ _ _ _ _ Hm).
  - intros method weight_kg r H. apply compute_inv in H.
    destruct H as [m [val [notes [Hm H]]]]. unfold Spec.weight_iff_cockcroft_gault.
    destruct H as [[E [F ->]]|[[E [F ->]]|[[E [F ->]]|[E [w [W [F ->]]]]]]];
      subst; cbn; split; intros H; try discriminate; try reflexivity;
      now elim H.
Qed.

Lemma weight_checked_for_cockcroft_gault_only_witness :
  compute_kidney_function "t" "Cockcroft-Gault" 60 "female" 1.0 "mg/dL"
    false None
  = Raise (ValueError "Cockcroft–Gault cần nhập cân nặng.")
  /\ compute_kidney_function "t" (Spec.method_str Spec.CKD_EPI_2021) 60
       "female" 1.0 "mg/dL" false (Some 70)
     = compute_kidney_function "t" (Spec.method_str Spec.CKD_EPI_2021) 60
         "female" 1.0 "mg/dL" false None
  /\ Spec.weight_iff_cockcroft_gault "Cockcroft-Gault"
       (Egfr.weight_kg (scenario_b_record "t")).
Proof.
  pose proof (weight_checked_for_cockcroft_gault_only "t" 60 "female" 1.0
                "mg/dL" false) as [_ [Hmsg [Hignored Hfield]]].
  split; [|split].
  - apply Hmsg. lra.
  - apply Hignored. discriminate.
  - apply (Hfield "Cockcroft-Gault" (Some 60)). apply scenario_b_runs.
Defined.

(** * Further properties of [src/egfr.py] *)

(** ** Real powers *)

Lemma Rpower_pos (x y : R) : 0 < Rpower x y.
Proof. unfold Rpower. apply exp_pos. Qed.


(** ** The formulas in closed form *)

(** Each formula function returns its docstring's value on a positive
    creatinine and an adult age. *)
Lemma ckd_epi_2021_value (scr : R) (age : Z) (sex : string) :
  0 < scr -> (18 <= age)%Z ->
  egfr_ckd_epi_2021 scr age sex = Ok (Doc.ckd_epi_2021 scr age sex).
Proof.
  intros Hc Ha. unfold egfr_ckd_epi_2021, Doc.ckd_epi_2021, Doc.kappa, Doc.female.
  rewrite (adult_not_minor _ Ha).
  set (k := if String.eqb sex "female" then 0.7 else 0.9).
  assert (Hk : 0 < k) by (subst k; destruct (String.eqb sex "female"); lra).
  rewrite fdiv_ok by lra. cbn [bind].
  assert (Hr : 0 < scr / k) by now apply Rdiv_lt_0_compat.
  rewrite (fpow_pos _ _ (fmin_ratio_pos _ Hr)). cbn [bind].
  rewrite (fpow_pos _ _ (fmax_ratio_pos _)). cbn [bind].
  rewrite fpow_pos by lra. cbn [bind].
  rewrite fmin_Rmin, fmax_Rmax, one_point_zero.
  replace 142.0 with 142 by lra. reflexivity.
Qed.

Lemma ckd_epi_2009_value (scr : R) (age : Z) (sex : string) (black : bool) :
  0 < scr -> (18 <= age)%Z ->
  egfr_ckd_epi_2009 scr age sex black = Ok (Doc.ckd_epi_2009 scr age sex black).
Proof.
  intros Hc Ha. unfold egfr_ckd_epi_2009, Doc.ckd_epi_2009, Doc.kappa, Doc.female.
  rewrite (adult_not_minor _ Ha).
  set (k := if String.eqb sex "female" then 0.7 else 0.9).
  assert (Hk : 0 < k) by (subst k; destruct (String.eqb sex "female"); lra).
  rewrite fdiv_ok by lra. cbn [bind].
  assert (Hr : 0 < scr / k) by now apply Rdiv_lt_0_compat.
  rewrite (fpow_pos _ _ (fmin_ratio_pos _ Hr)). cbn [bind].
  rewrite (fpow_pos _ _ (fmax_ratio_pos _)). cbn [bind].
  rewrite fpow_pos by lra. cbn [bind].
  rewrite fmin_Rmin, fmax_Rmax, one_point_zero.
  replace 141.0 with 141 by lra. reflexivity.
Qed.

Lemma mdrd_idms_value (scr : R) (age : Z) (sex : string) (black : bool) :
  0 < scr -> (18 <= age)%Z ->
  egfr_mdrd_idms scr age sex black = Ok (Doc.mdrd_idms scr age sex black).
Proof.
  intros Hc Ha. unfold egfr_mdrd_idms, Doc.mdrd_idms, Doc.female.
  rewrite (adult_not_minor _ Ha).
  rewrite (fpow_pos _ _ Hc). cbn [bind].
  rewrite fpow_pos by (apply adult_age_pos in Ha; lra). cbn [bind].
  rewrite one_point_zero. replace 175.0 with 175 by lra. reflexivity.
Qed.

Lemma cockcroft_gault_value (scr : R) (age : Z) (sex : string) (w : R) :
  scr <> 0 -> (18 <= age)%Z -> 0 < w ->
  crcl_cockcroft_gault scr age sex w = Ok (Doc.cockcroft_gault scr age sex w).
Proof.
  intros Hc Ha Hw. unfold crcl_cockcroft_gault, Doc.cockcroft_gault, Doc.female.
  rewrite (adult_not_minor _ Ha), (fle_false _ _ Hw).
  rewrite fdiv_ok by lra. cbn [bind].
  replace 140.0 with 140 by lra. replace 72.0 with 72 by lra.
  destruct (String.eqb sex "female"); f_equal; lra.
Qed.



Lemma doc_ckd_epi_2021_pos (scr : R) (age : Z) (sex : string) :
  0 < Doc.ckd_epi_2021 scr age sex.
Proof.
  unfold Doc.ckd_epi_2021.
  apply Rmult_lt_0_compat;
    [apply Rmult_lt_0_compat;
       [apply Rmult_lt_0_compat;
          [apply Rmult_lt_0_compat; [lra | apply Rpower_pos]
          | apply Rpower_pos]
       | apply Rpower_pos]
    | destruct (Doc.female sex); lra].
Qed.

Lemma doc_ckd_epi_2009_pos (scr : R) (age : Z) (sex : string) (black : bool) :
  0 < Doc.ckd_epi_2009 scr age sex black.
Proof.
  unfold Doc.ckd_epi_2009.
  apply Rmult_lt_0_compat;
    [apply Rmult_lt_0_compat;
       [apply Rmult_lt_0_compat;
          [apply Rmult_lt_0_compat;
             [apply Rmult_lt_0_compat; [lra | apply Rpower_pos]
             | apply Rpower_pos]
          | apply Rpower_pos]
       | destruct (Doc.female sex); lra]
    | destruct black; lra].
Qed.

Lemma doc_mdrd_idms_pos (scr : R) (age : Z) (sex : string) (black : bool) :
  0 < Doc.mdrd_idms scr age sex black.
Proof.
  unfold Doc.mdrd_idms.
  apply Rmult_lt_0_compat;
    [apply Rmult_lt_0_compat;
       [apply Rmult_lt_0_compat;
          [apply Rmult_lt_0_compat; [lra | apply Rpower_pos]
          | apply Rpower_pos]
       | destruct (Doc.female sex); lra]
    | destruct black; lra].
Qed.



(** ** What the assembler's result depends on *)





(** X10: which error a call with several faults reports, once the
    creatinine is positive.  An unrecognized method is reported whatever
    the age and the weight are.  Cockcroft-Gault without a weight reports
    the missing weight whatever the age is, also for a minor.  Otherwise a
    minor is reported with the method's own age message: for the three
    eGFR methods always, for Cockcroft-Gault when a weight is supplied,
    even a non-positive one.  The non-positive weight is reported for
    adults only. *)
Theorem compute_error_precedence (now method : string) (age : Z)
    (sex : string) (scr_value : R) (scr_unit : string) (black : bool)
    (weight_kg : option R) :
  0 < scr_value ->
  let run := compute_kidney_function now method age sex scr_value scr_unit
               black weight_kg in
  ((forall k, method <> Spec.method_str k) ->
   run = Raise (ValueError "Phương pháp không hợp lệ."))
  /\ (method = "Cockcroft-Gault" -> weight_kg = None ->
      run = Raise (ValueError "Cockcroft–Gault cần nhập cân nặng."))
  /\ ((age < 18)%Z ->
      (method = "CKD-EPI 2021" ->
       run = Raise (ValueError "CKD-EPI 2021: áp dụng cho người lớn (>=18 tuổi)."))
      /\ (method = "CKD-EPI 2009" ->
          run = Raise (ValueError "CKD-EPI 2009: áp dụng cho người lớn (>=18 tuổi)."))
      /\ (method = "MDRD (IDMS)" ->
          run = Raise (ValueError "MDRD: áp dụng cho người lớn (>=18 tuổi)."))
      /\ (method = "Cockcroft-Gault" -> weight_kg <> None ->
          run = Raise (ValueError
                  "Cockcroft–Gault: thường dùng cho người lớn (>=18 tuổi).")))
  /\ ((18 <= age)%Z -> method = "Cockcroft-Gault" ->
      forall w, weight_kg = Some w -> w <= 0 ->
      run = Raise (ValueError "Cân nặng phải > 0.")).
Proof.
  intros Hpos run. subst run.
  destruct (scr_to_mgdl_ok scr_value scr_unit Hpos) as [m [Hm _]].
  split; [|split; [|split]].
  - intros Hk. now apply (compute_unrecognized _ _ _ _ _ _ _ _ m).
  - intros -> ->. now rewrite (compute_cockcroft_gault _ _ _ _ _ _ _ _ Hm).
  - intros Ha. apply Z.ltb_lt in Ha. repeat split; intros ->.
    + rewrite (compute_ckd_epi_2021 _ _ _ _ _ _ _ _ Hm).
      unfold egfr_ckd_epi_2021. now rewrite Ha.
    + rewrite (compute_ckd_epi_2009 _ _ _ _ _ _ _ _ Hm).
      unfold egfr_ckd_epi_2009. now rewrite Ha.
    + rewrite (compute_mdrd_idms _ _ _ _ _ _ _ _ Hm).
      unfold egfr_mdrd_idms. now rewrite Ha.
    + intros Hw. rewrite (compute_cockcroft_gault _ _ _ _ _ _ _ _ Hm).
      destruct weight_kg as [w|]; [|contradiction].
      unfold crcl_cockcroft_gault. now rewrite Ha.
  - intros Ha -> w -> Hw.
    rewrite (compute_cockcroft_gault _ _ _ _ _ _ _ _ Hm).
    unfold crcl_cockcroft_gault.
    now rewrite (adult_not_minor _ Ha), (fle_true _ _ Hw).
Qed.

Lemma compute_error_precedence_witness :
  compute_kidney_function "t" "Cockcroft-Gault" 17 "male" 1 "mg/dL" false
    (Some 0)
  = Raise (ValueError "Cockcroft–Gault: thường dùng cho người lớn (>=18 tuổi).")
  /\ compute_kidney_function "t" "Cockcroft-Gault" 18 "male" 1 "mg/dL" false
       (Some 0)
     = Raise (ValueError "Cân nặng phải > 0.")
  /\ compute_kidney_function "t" "eGFR" 17 "male" 1 "mg/dL" false None
     = Raise (ValueError "Phương pháp không hợp lệ.")
  /\ compute_kidney_function "t" "Cockcroft-Gault" 17 "male" 1 "mg/dL" false
       None
     = Raise (ValueError "Cockcroft–Gault cần nhập cân nặng.").
Proof.
  split; [|split; [|split]].
  - apply (compute_error_precedence "t" "Cockcroft-Gault" 17 "male" 1 "mg/dL"
             false (Some 0)); [lra | lia | reflexivity | discriminate].
  - apply (compute_error_precedence "t" "Cockcroft-Gault" 18 "male" 1 "mg/dL"
             false (Some 0)) with (w := 0); [lra | lia | reflexivity
                                            | reflexivity | lra].
  - apply (compute_error_precedence "t" "eGFR" 17 "male" 1 "mg/dL" false None);
      [lra|].
    intros []; discriminate.
  - apply (compute_error_precedence "t" "Cockcroft-Gault" 17 "male" 1 "mg/dL"
             false None); [lra | reflexivity | reflexivity].
Defined.

(** * [src/app.py] *)

(** ** The severity bar *)

(** The position of a value's stage in [stage_order], range by range. *)
Lemma stage_index_cases (v : R) :
  (90 <= v /\ App.list_index (fst (gfr_stage_g1_g5 v)) App.stage_order = Ok 0%nat)
  \/ (60 <= v < 90
      /\ App.list_index (fst (gfr_stage_g1_g5 v)) App.stage_order = Ok 1%nat)
  \/ (45 <= v < 60
      /\ App.list_index (fst (gfr_stage_g1_g5 v)) App.stage_order = Ok 2%nat)
  \/ (30 <= v < 45
      /\ App.list_index (fst (gfr_stage_g1_g5 v)) App.stage_order = Ok 3%nat)
  \/ (15 <= v < 30
      /\ App.list_index (fst (gfr_stage_g1_g5 v)) App.stage_order = Ok 4%nat)
  \/ (v < 15
      /\ App.list_index (fst (gfr_stage_g1_g5 v)) App.stage_order = Ok 5%nat).
Proof.
  destruct (gfr_stage_bucket v) as [b [Hin Hcode]]. rewrite Hcode.
  destruct b; cbn [Spec.in_bucket] in Hin.
  - left. now split.
  - right; left. now split.
  - do 2 right; left. now split.
  - do 3 right; left. now split.
  - do 4 right; left. now split.
  - do 5 right. now split.
Qed.

(** X11: the stage of every value is found in [stage_order], so
    [stage_order.index] never raises on a stage the classifier produced,
    and the position is monotone: a value at least as high never sits
    further down the list (never gets a worse stage). *)
Theorem stage_index_monotone (v1 v2 : R) :
  v1 <= v2 ->
  exists i1 i2 : nat,
    App.list_index (fst (gfr_stage_g1_g5 v1)) App.stage_order = Ok i1
    /\ App.list_index (fst (gfr_stage_g1_g5 v2)) App.stage_order = Ok i2
    /\ (i2 <= i1 < 6)%nat.
Proof.
  intros H.
  destruct (stage_index_cases v1) as [[A ->]|[[A ->]|[[A ->]|[[A ->]|[[A ->]|[A ->]]]]]];
  destruct (stage_index_cases v2) as [[B ->]|[[B ->]|[[B ->]|[[B ->]|[[B ->]|[B ->]]]]]];
  do 2 eexists; (split; [reflexivity|split; [reflexivity|]]); try lia; lra.
Qed.

Lemma stage_index_monotone_witness :
  exists i1 i2 : nat,
    App.list_index (fst (gfr_stage_g1_g5 44)) App.stage_order = Ok i1
    /\ App.list_index (fst (gfr_stage_g1_g5 61)) App.stage_order = Ok i2
    /\ (i2 <= i1 < 6)%nat.
Proof. apply stage_index_monotone. lra. Defined.

Lemma compute_stage (now method : string) (age : Z) (sex : string)
    (scr_value : R) (scr_unit : string) (black : bool) (weight_kg : option R)
    (r : KidneyResult) :
  compute_kidney_function now method age sex scr_value scr_unit black weight_kg
  = Ok r ->
  stage r = fst (gfr_stage_g1_g5 (value r)).
Proof.
  intros H. apply compute_inv in H.
  destruct H as [m [val [notes [_ H]]]].
  destruct H as [[_ [_ ->]]|[[_ [_ ->]]|[[_ [_ ->]]|[_ [w [_ [_ ->]]]]]]];
    reflexivity.
Qed.

(** X12: for every record the assembler returns, the value handed to the
    progress bar is defined and is (idx + 1) / 6 for the position idx of
    the record's stage; it lies in [1/6, 1], so neither [list.index] nor
    the bar's range check can fail on a computed result. *)
Theorem progress_value_in_range (now method : string) (age : Z)
    (sex : string) (scr_value : R) (scr_unit : string) (black : bool)
    (weight_kg : option R) (r : KidneyResult) :
  compute_kidney_function now method age sex scr_value scr_unit black weight_kg
  = Ok r ->
  exists (idx : nat) (p : R),
    App.list_index (stage r) App.stage_order = Ok idx
    /\ App.progress_value r = Ok p
    /\ p = INR (idx + 1) / 6
    /\ 1 / 6 <= p <= 1.
Proof.
  intros H. apply compute_stage in H. unfold App.progress_value. rewrite H.
  destruct (stage_index_cases (value r))
    as [[_ ->]|[[_ ->]|[[_ ->]|[[_ ->]|[[_ ->]|[_ ->]]]]]];
    cbn [bind]; eexists; eexists;
    (split; [reflexivity|]);
    (split; [apply fdiv_ok; cbn; lra|]);
    (split; [cbn; lra|]); cbn; lra.
Qed.

Lemma progress_value_in_range_witness :
  exists (idx : nat) (p : R),
    App.list_index (stage (scenario_b_record "t")) App.stage_order = Ok idx
    /\ App.progress_value (scenario_b_record "t") = Ok p
    /\ p = INR (idx + 1) / 6
    /\ 1 / 6 <= p <= 1.
Proof.
  apply (progress_value_in_range "t" "Cockcroft-Gault" 60 "female" 1.0 "mg/dL"
           false (Some 60)).
  apply scenario_b_runs.
Defined.

(** ** The form *)

Lemma doc_cockcroft_gault_pos (scr : R) (age : Z) (sex : string) (w : R) :
  0 < scr -> (age < 140)%Z -> 0 < w -> 0 < Doc.cockcroft_gault scr age sex w.
Proof.
  intros Hc Ha Hw. unfold Doc.cockcroft_gault. apply IZR_lt in Ha.
  apply Rmult_lt_0_compat; [|destruct (Doc.female sex); lra].
  apply Rdiv_lt_0_compat; [|lra].
  apply Rmult_lt_0_compat; lra.
Qed.

(** X13: everything the form can submit is accepted.  When the widgets
    return values within the ranges they are created with, the call made
    by the script returns a record, so its error branch is never taken;
    the value of that record is strictly positive, and the record carries a
    weight exactly for Cockcroft-Gault and a race flag exactly for
    CKD-EPI 2009 and MDRD (IDMS). *)
Theorem form_submit_accepted (now : string) (f : App.Form) :
  App.widgets_in_range f ->
  exists r,
    App.submit now f = Ok r
    /\ 0 < value r
    /\ (weight_kg r <> None <-> App.method_box f = "Cockcroft-Gault")
    /\ (black r <> None <-> App.method_box f = "CKD-EPI 2009"
                            \/ App.method_box f = "MDRD (IDMS)").
Proof.
  intros [Hm [Ha [_ [Hscr Hw]]]]. unfold App.submit.
  set (sex := if String.eqb (App.sex_ui f) "Nam" then "male" else "female").
  set (unit := if String.eqb (App.unit_ui f) "µmol/L" then "umol/L" else "mg/dL").
  assert (Hpos : 0 < App.scr_slider f) by (destruct Hscr as [[_ H]|[_ H]]; lra).
  destruct (scr_to_mgdl_ok (App.scr_slider f) unit Hpos) as [m [Hmg Hmpos]].
  assert (Hadult : (18 <= App.age_slider f)%Z) by lia.
  assert (Hwpos : 0 < IZR (App.weight_slider f))
    by (apply (IZR_lt 0); lia).
  unfold App.METHODS in Hm. cbn [In] in Hm.
  destruct Hm as [E|[E|[E|[E|[]]]]]; rewrite <- E; cbn [existsb orb].
  - replace (String.eqb "CKD-EPI 2021" "CKD-EPI 2009") with false by reflexivity.
    replace (String.eqb "CKD-EPI 2021" "MDRD (IDMS)") with false by reflexivity.
    replace (String.eqb "CKD-EPI 2021" "Cockcroft-Gault") with false by reflexivity.
    cbn [orb].
    rewrite (compute_ckd_epi_2021 _ _ _ _ _ _ _ _ Hmg).
    rewrite (ckd_epi_2021_value _ _ _ Hmpos Hadult). cbn [bind].
    eexists. split; [reflexivity|]. cbn.
    split; [apply doc_ckd_epi_2021_pos|].
    split; split; intros H; try discriminate; try tauto;
      try (now left); try (now right);
      try (destruct H as [H|H]; discriminate H).
  - replace (String.eqb "CKD-EPI 2009" "CKD-EPI 2009") with true by reflexivity.
    replace (String.eqb "CKD-EPI 2009" "Cockcroft-Gault") with false by reflexivity.
    cbn [orb].
    rewrite (compute_ckd_epi_2009 _ _ _ _ _ _ _ _ Hmg).
    rewrite (ckd_epi_2009_value _ _ _ _ Hmpos Hadult). cbn [bind].
    eexists. split; [reflexivity|]. cbn.
    split; [apply doc_ckd_epi_2009_pos|].
    split; split; intros H; try discriminate; try tauto;
      try (now left); try (now right);
      try (destruct H as [H|H]; discriminate H).
  - replace (String.eqb "MDRD (IDMS)" "CKD-EPI 2009") with false by reflexivity.
    replace (String.eqb "MDRD (IDMS)" "MDRD (IDMS)") with true by reflexivity.
    replace (String.eqb "MDRD (IDMS)" "Cockcroft-Gault") with false by reflexivity.
    cbn [orb].
    rewrite (compute_mdrd_idms _ _ _ _ _ _ _ _ Hmg).
    rewrite (mdrd_idms_value _ _ _ _ Hmpos Hadult). cbn [bind].
    eexists. split; [reflexivity|]. cbn.
    split; [apply doc_mdrd_idms_pos|].
    split; split; intros H; try discriminate; try tauto;
      try (now left); try (now right);
      try (destruct H as [H|H]; discriminate H).
  - replace (String.eqb "Cockcroft-Gault" "CKD-EPI 2009") with false by reflexivity.
    replace (String.eqb "Cockcroft-Gault" "MDRD (IDMS)") with false by reflexivity.
    replace (String.eqb "Cockcroft-Gault" "Cockcroft-Gault") with true by reflexivity.
    cbn [orb].
    rewrite (compute_cockcroft_gault _ _ _ _ _ _ _ _ Hmg).
    rewrite cockcroft_gault_value by (lra || assumption). cbn [bind].
    eexists. split; [reflexivity|]. cbn.
    split; [apply doc_cockcroft_gault_pos; lra || lia|].
    split; split; intros H; try discriminate; try tauto;
      try (now left); try (now right);
      try (destruct H as [H|H]; discriminate H).
Qed.

Lemma form_submit_accepted_witness :
  exists r,
    App.submit "t" (App.mkForm "Cockcroft-Gault" 60 "Nữ" "mg/dL" 1.0 false 60)
    = Ok r
    /\ 0 < value r
    /\ (weight_kg r <> None <-> "Cockcroft-Gault" = "Cockcroft-Gault")
    /\ (black r <> None <-> "Cockcroft-Gault" = "CKD-EPI 2009"
                            \/ "Cockcroft-Gault" = "MDRD (IDMS)").
Proof.
  apply (form_submit_accepted "t"
           (App.mkForm "Cockcroft-Gault" 60 "Nữ" "mg/dL" 1.0 false 60)).
  unfold App.widgets_in_range, App.METHODS. cbn.
  repeat split; try lia; try tauto.
  right. split; [reflexivity | lra].
Defined.

(** ** The history file *)


Section HistoryFile.

Variable fixed : nat -> R -> string.
Variable str_int : Z -> string.
Variable str_float : R -> string.


End HistoryFile.

Section HistoryCells.

Variable fixed : nat -> R -> string.
Variable str_int : Z -> string.
Variable str_float : R -> string.

(** X15: the optional columns of a saved result.  For a record the
    assembler returned, the [black] cell holds [True] or [False], the
    supplied flag, for CKD-EPI 2009 and MDRD (IDMS) and is empty for the
    other two methods; the [weight_kg] cell holds the supplied weight, with
    no decimals, for Cockcroft-Gault and is empty for the other three. *)
Theorem history_optional_cells (now method : string) (age : Z)
    (sex : string) (scr_value : R) (scr_unit : string) (black : bool)
    (weight_kg : option R) (r : KidneyResult) :
  compute_kidney_function now method age sex scr_value scr_unit black weight_kg
  = Ok r ->
  In ("black",
      if String.eqb method "CKD-EPI 2009" || String.eqb method "MDRD (IDMS)"
      then App.str_bool black else "")
     (App.history_row fixed str_int str_float r)
  /\ In ("weight_kg",
         if String.eqb method "Cockcroft-Gault"
         then match weight_kg with Some w => fixed 0 w | None => "" end
         else "")
        (App.history_row fixed str_int str_float r).
Proof.
  intros H. apply compute_inv in H.
  destruct H as [m [val [notes [_ H]]]].
  destruct H as [[E [_ ->]]|[[E [_ ->]]|[[E [_ ->]]|[E [w [W [_ ->]]]]]]];
    subst; unfold App.history_row; cbn; split; auto 20.
Qed.

End HistoryCells.

Lemma history_optional_cells_witness :
  In ("black", "")
     (App.history_row (fun _ _ => "0") (fun _ => "0") (fun _ => "0")
        (scenario_b_record "t"))
  /\ In ("weight_kg", "0")
        (App.history_row (fun _ _ => "0") (fun _ => "0") (fun _ => "0")
           (scenario_b_record "t")).
Proof.
  apply (history_optional_cells (fun _ _ => "0") (fun _ => "0") (fun _ => "0")
           "t" "Cockcroft-Gault" 60 "female" 1.0 "mg/dL" false (Some 60)).
  apply scenario_b_runs.
Defined.

(** * The assembler's failures over binary64 *)

Section Binary64.

Import PrimFloat.

#[local] Set Warnings "-inexact-float".

Variable pow : float -> float -> Py64.pow_outcome.
















End Binary64.

Section Binary64Claims.

Import PrimFloat.

#[local] Set Warnings "-inexact-float".




End Binary64Claims.
